(** * candles: Ichimoku indicator engine, 5-candle strategy and trade log

    Shallow embedding of [streamlit_app.py]: [calculate_ichimoku],
    [apply_trading_strategy] and [log_trade], together with the part of
    pandas they call (rolling windows, shifts, pointwise arithmetic, [head],
    [mean], [iloc]).

    Modelling choices.
    - A float64 cell is [option Q]: [None] is NaN, [Some q] a number.  Prices
      are exact rationals; binary64 rounding is not modelled.
    - A data frame is the list of its rows.  A row carries the six columns
      the program reads: symbol, open, high, low, close and lastTrade.  Every
      price cell of a quote row holds a number; NaN only arises inside the
      derived indicator series.
    - Streamlit output, the wall clock and the file trade_log.csv form an
      explicit [World] threaded through a small state-and-exception monad.
      Opening and writing the file are assumed to succeed.
    - [calculate_ichimoku] takes its closing prices from the lastTrade
      column, [apply_trading_strategy] from the close column; the two columns
      are kept apart here as they are in the source.
    - [fetch_stock_data] is embedded with the HTTP client as a parameter:
      a session is what [session.get(url).json()] yields for each URL.  The
      frame it builds has the columns of the feed, not the six above, so it
      is kept as the list of the JSON records it was built from.
    - The OAuth handshake, the plot, [main] and the module-level logging
      setup are not part of the embedding. *)

From Stdlib Require Import QArith Qminmax Lqa.
From stdpp Require Import base list strings.

Local Open Scope nat_scope.

(** ** The pandas fragment used by the program *)

Module Pandas.

(** A float64 Series with the default RangeIndex. *)
Abbreviation Series := (list (option Q)).

(** [len(s)] *)
Definition len {A} (s : list A) : nat := length s.

(** The non-NaN observations of a window, in order. *)
Definition observations (win : Series) : list Q := omap id win.

(** Positions [max(0, i-w+1) .. i] of [s]: the trailing window that
    [s.rolling(window=w)] looks at for position [i]. *)
Definition window_at (w : nat) (s : Series) (i : nat) : Series :=
  drop (S i - w) (take (S i) s).

(** Fold a binary choice over a non-empty list of observations. *)
Definition reduce (f : Q -> Q -> Q) (obs : list Q) : option Q :=
  match obs with
  | [] => None
  | x :: xs => Some (foldl f x xs)
  end.

(** [s.rolling(window=w).agg()] with the default [min_periods = w]: NaN
    unless the window holds at least [w] observations. *)
Definition rolling (f : Q -> Q -> Q) (w : nat) (s : Series) : Series :=
  (fun i =>
     let obs := observations (window_at w s i) in
     if length obs <? w then None else reduce f obs) <$> seq 0 (length s).

(** [s.rolling(window=w).max()] and [.min()] *)
Definition rolling_max : nat -> Series -> Series := rolling Qmax.
Definition rolling_min : nat -> Series -> Series := rolling Qmin.

(** [a + b] on two series with the same index: NaN propagates. *)
Definition add (a b : Series) : Series :=
  zip_with (fun x y =>
              match x, y with
              | Some p, Some q => Some (p + q)%Q
              | _, _ => None
              end) a b.

(** [a / d] for a scalar [d]. *)
Definition div (a : Series) (d : Q) : Series :=
  fmap (M := option) (fun p => (p / d)%Q) <$> a.

(** [s.shift(periods)]: same length, values moved by [periods] positions,
    NaN filled in at the vacated end. *)
Definition shift (periods : Z) (s : Series) : Series :=
  let n := length s in
  if (0 <=? periods)%Z
  then take n (replicate (Z.to_nat periods) None ++ s)
  else drop (Z.to_nat (- periods)) s
         ++ replicate (Nat.min (Z.to_nat (- periods)) n) None.

(** [s.head(n)] *)
Definition head {A} (n : nat) (s : list A) : list A := take n s.

(** Sum of observations, left to right. *)
Definition sum (obs : list Q) : Q := foldl Qplus 0%Q obs.

(** [s.mean()] with the default [skipna=True]: NaN on no observation. *)
Definition mean (s : Series) : option Q :=
  match observations s with
  | [] => None
  | obs => Some (sum obs / inject_Z (Z.of_nat (length obs)))%Q
  end.

(** Python's [>] and [<] on floats: false as soon as one side is NaN. *)
Definition gt (x y : option Q) : bool :=
  match x, y with
  | Some p, Some q => match (p ?= q)%Q with Gt => true | _ => false end
  | _, _ => false
  end.

Definition lt (x y : option Q) : bool :=
  match x, y with
  | Some p, Some q => match (p ?= q)%Q with Lt => true | _ => false end
  | _, _ => false
  end.

End Pandas.

(** ** Quote rows and data frames *)

Record QuoteRow := mkQuoteRow {
  symbol : string;
  open : Q;
  high : Q;
  low : Q;
  close : Q;
  lastTrade : Q
}.

Abbreviation DataFrame := (list QuoteRow).

(** [data['high']] and the like: one numeric column as a Series. *)
Definition column (f : QuoteRow -> Q) (data : DataFrame) : Pandas.Series :=
  (fun r => Some (f r)) <$> data.

(** [data['symbol']] *)
Definition symbol_column (data : DataFrame) : list string := symbol <$> data.

(** ** The world: Streamlit alerts, the clock, trade_log.csv *)

(** A piece of an f-string: literal text or an interpolated value. *)
Inductive Piece :=
| Lit (s : string)
| Num (x : Q)
| TradeInfoRepr (sym act : string) (price : Q).

Inductive Alert :=
| AlertError (msg : list Piece)
| AlertSuccess (msg : list Piece)
| AlertInfo (msg : list Piece).

(** A cell of a CSV row as handed to [csv.writer.writerow]. *)
Inductive Cell :=
| CellTime (t : Z)
| CellStr (s : string)
| CellNum (x : Q).

Abbreviation CsvRow := (list Cell).

Record World := mkWorld {
  (** rows of trade_log.csv, [None] while the file does not exist *)
  trade_log_csv : option (list CsvRow);
  (** what [datetime.datetime.now()] returns *)
  clock : Z;
  (** alerts shown so far, oldest first *)
  screen : list Alert
}.

Inductive PyExn := IndexError.

Inductive Outcome (A : Type) :=
| Returns (a : A) (w : World)
| Raises (e : PyExn) (w : World).
Arguments Returns {A} a w.
Arguments Raises {A} e w.

Definition M (A : Type) : Type := World -> Outcome A.

Definition ret {A} (a : A) : M A := fun w => Returns a w.

Definition bind {A B} (m : M A) (k : A -> M B) : M B :=
  fun w =>
    match m w with
    | Returns a w' => k a w'
    | Raises e w' => Raises e w'
    end.

Definition raise {A} (e : PyExn) : M A := fun w => Raises e w.

Declare Scope py_scope.
Delimit Scope py_scope with py.
Notation "x <- m ;; k" := (bind m (fun x => k))
  (at level 100, m at next level, right associativity) : py_scope.
Notation "m ;;; k" := (bind m (fun _ => k))
  (at level 100, right associativity) : py_scope.
Local Open Scope py_scope.

Definition st_alert (a : Alert) : M unit :=
  fun w => Returns tt (mkWorld (trade_log_csv w) (clock w) (screen w ++ [a])).

Definition st_error (msg : list Piece) : M unit := st_alert (AlertError msg).
Definition st_success (msg : list Piece) : M unit := st_alert (AlertSuccess msg).
Definition st_info (msg : list Piece) : M unit := st_alert (AlertInfo msg).

(** [datetime.datetime.now()] *)
Definition datetime_now : M Z := fun w => Returns (clock w) w.

(** [s.iloc[i]]: IndexError out of bounds. *)
Definition iloc {A} (s : list A) (i : nat) : M A :=
  match s !! i with
  | Some x => ret x
  | None => raise IndexError
  end.

(** Rows currently in the file; an absent file has none. *)
Definition log_rows (w : World) : list CsvRow := default [] (trade_log_csv w).

(** [open('trade_log.csv', mode='a')] then [writer.writerow(row)]: the file
    is created when absent and the row goes after everything in it. *)
Definition append_row (row : CsvRow) : M unit :=
  fun w => Returns tt (mkWorld (Some (log_rows w ++ [row])) (clock w) (screen w)).

(** ** The program *)

(** The dict [{'symbol': .., 'action': .., 'price': ..}]. *)
Record TradeInfo := mkTradeInfo {
  ti_symbol : string;
  ti_action : string;
  ti_price : Q
}.

Definition Ichimoku : Type :=
  Pandas.Series * Pandas.Series * Pandas.Series * Pandas.Series * Pandas.Series.

Definition calculate_ichimoku (data : option DataFrame) : M (option Ichimoku) :=
  match data with
  | Some df =>
      if 52 <=? Pandas.len df then
        let high_prices := column high df in
        let low_prices := column low df in
        let close_prices := column lastTrade df in
        let tenkan_sen :=
          Pandas.div (Pandas.add (Pandas.rolling_max 9 high_prices)
                                 (Pandas.rolling_min 9 low_prices)) 2 in
        let kijun_sen :=
          Pandas.div (Pandas.add (Pandas.rolling_max 26 high_prices)
                                 (Pandas.rolling_min 26 low_prices)) 2 in
        let senkou_span_a :=
          Pandas.shift 26 (Pandas.div (Pandas.add tenkan_sen kijun_sen) 2) in
        let senkou_span_b :=
          Pandas.shift 26
            (Pandas.div (Pandas.add (Pandas.rolling_max 52 high_prices)
                                    (Pandas.rolling_min 52 low_prices)) 2) in
        let chikou_span := Pandas.shift (-26) close_prices in
        ret (Some (tenkan_sen, kijun_sen, senkou_span_a, senkou_span_b,
                   chikou_span))
      else
        st_error [Lit "Not enough data for Ichimoku Cloud calculation."] ;;;
        ret None
  | None =>
      st_error [Lit "Not enough data for Ichimoku Cloud calculation."] ;;;
      ret None
  end.

Definition log_trade (trade_info : TradeInfo) : M unit :=
  now <- datetime_now ;;
  append_row [CellTime now; CellStr (ti_symbol trade_info);
              CellStr (ti_action trade_info); CellNum (ti_price trade_info)] ;;;
  st_success [Lit "Trade logged: ";
              TradeInfoRepr (ti_symbol trade_info) (ti_action trade_info)
                            (ti_price trade_info)].

Definition apply_trading_strategy (data : option DataFrame) (target_price : Q)
  : M unit :=
  match data with
  | Some df =>
      if 5 <=? Pandas.len df then
        let avg_close := Pandas.mean (Pandas.head 5 (column close df)) in
        first_open <- iloc (column open df) 0 ;;
        action <-
          (if Pandas.gt avg_close first_open then
             st_success [Lit "Average close is above the first open; buying calls at $";
                         Num target_price] ;;;
             ret "buy call"%string
           else if Pandas.lt avg_close first_open then
             st_success [Lit "Average close is below the first open; buying puts at $";
                         Num target_price] ;;;
             ret "buy put"%string
           else
             st_info [Lit "Average close is equal to the first open; no action recommended."] ;;;
             ret "hold"%string) ;;
        sym <- iloc (symbol_column df) 0 ;;
        log_trade (mkTradeInfo sym action target_price)
      else
        st_error [Lit "Not enough data to apply the strategy."]
  | None => st_error [Lit "Not enough data to apply the strategy."]
  end.

(** ** Specification-side vocabulary *)



(** The expression [(high.rolling(w).max() + low.rolling(w).min()) / 2] that
    [calculate_ichimoku] writes three times, for w = 9, 26 and 52. *)
Definition midline (w : nat) (df : DataFrame) : Pandas.Series :=
  Pandas.div (Pandas.add (Pandas.rolling_max w (column high df))
                         (Pandas.rolling_min w (column low df))) 2.

(** Number of rows in the trade log, an absent file counting as empty. *)
Definition log_length (w : World) : nat := length (log_rows w).


(** The alert both precondition failures of the indicator engine show. *)
Definition ichimoku_error : Alert :=
  AlertError [Lit "Not enough data for Ichimoku Cloud calculation."].

(** The alert the strategy shows when its precondition fails. *)
Definition strategy_error : Alert :=
  AlertError [Lit "Not enough data to apply the strategy."].

(** The CSV row [log_trade] writes for a decision taken at time [t]. *)
Definition trade_row (t : Z) (sym act : string) (price : Q) : CsvRow :=
  [CellTime t; CellStr sym; CellStr act; CellNum price].

(** ** Sample inputs *)

Definition sample_row (i : nat) : QuoteRow :=
  mkQuoteRow "XYZ"
    (inject_Z (Z.of_nat i))
    (inject_Z (Z.of_nat (10 + (i * i) mod 7)))
    (inject_Z (Z.of_nat (i mod 5)))
    (inject_Z (Z.of_nat (2 * i)))
    (inject_Z (Z.of_nat (100 + i))).

Definition sample_frame (n : nat) : DataFrame := sample_row <$> seq 0 n.

Definition fresh_world : World := mkWorld None 1000 [].

(** What [data['close'].head(5).mean()] evaluates to on five rows or more. *)
Definition avg_close_of (r0 r1 r2 r3 r4 : QuoteRow) : Q :=
  (Pandas.sum [close r0; close r1; close r2; close r3; close r4]
   / inject_Z 5)%Q.

(** A row with open [o] and every other price equal to [c]. *)
Definition candle (o c : Q) : QuoteRow := mkQuoteRow "XYZ" o c c c c.

(** Two frames with the same first five closes (as numbers) and the same
    first open, differing in symbol, high, low, lastTrade, later opens and
    length. *)
Definition frame_a : DataFrame :=
  [mkQuoteRow "AAA" 3 9 1 4 4; mkQuoteRow "AAA" 0 9 1 5 5;
   mkQuoteRow "AAA" 0 9 1 6 6; mkQuoteRow "AAA" 0 9 1 7 7;
   mkQuoteRow "AAA" 0 9 1 8 8].

Definition frame_b : DataFrame :=
  [mkQuoteRow "BBB" (6 # 2) 20 2 (8 # 2) 0; mkQuoteRow "BBB" 1 21 3 5 0;
   mkQuoteRow "BBB" 2 22 4 (12 # 2) 0; mkQuoteRow "BBB" 3 23 5 7 0;
   mkQuoteRow "BBB" 4 24 6 8 0; mkQuoteRow "BBB" 50 60 40 55 0].

(** A frame whose close and lastTrade columns carry the same value. *)
Definition aliased_frame (n : nat) : DataFrame :=
  (fun i => candle (inject_Z (Z.of_nat i)) (inject_Z (Z.of_nat (2 * i))))
    <$> seq 0 n.

(** The series [(tenkan_sen + kijun_sen) / 2] that [calculate_ichimoku]
    shifts into Senkou Span A. *)
Definition senkou_source (df : DataFrame) : Pandas.Series :=
  Pandas.div (Pandas.add (midline 9 df) (midline 26 df)) 2.

(** The alert shown for a decided action, as the three branches of
    [apply_trading_strategy] write it. *)
Definition decision_alert (act : string) (target_price : Q) : Alert :=
  if String.eqb act "buy call" then
    AlertSuccess [Lit "Average close is above the first open; buying calls at $";
                  Num target_price]
  else if String.eqb act "buy put" then
    AlertSuccess [Lit "Average close is below the first open; buying puts at $";
                  Num target_price]
  else
    AlertInfo [Lit "Average close is equal to the first open; no action recommended."].

(** ** The quote fetch

    [fetch_stock_data] asks the session for a URL and picks one record out of
    the JSON it gets.  The HTTP client is outside the source: a session is
    what [session.get(url).json()] evaluates to for each URL, a value or an
    exception.  The frame [pd.DataFrame([record])] is kept as the list of the
    records it was built from, one row per record. *)

Inductive PyError :=
| TypeError
| KeyError
| SequenceIndexError
| NameError
| RequestError.

(** What [response.json()] can return. *)
Set Warnings "-register-all".
Inductive Json :=
| JNull
| JBool (b : bool)
| JNum (x : Q)
| JStr (s : string)
| JList (xs : list Json)
| JDict (items : list (string * Json)).

(** A computation of the [try] block: an exception or a value. *)
Definition attempt (A : Type) : Type := PyError + A.

Definition attempt_bind {A B} (m : attempt A) (k : A -> attempt B) : attempt B :=
  match m with
  | inl e => inl e
  | inr a => k a
  end.

Notation "x <~ m ;; k" := (attempt_bind m (fun x => k))
  (at level 100, m at next level, right associativity) : py_scope.

(** [d.get(key)] on the items of a dict. *)
Fixpoint dict_lookup (key : string) (items : list (string * Json)) : option Json :=
  match items with
  | [] => None
  | (k, v) :: rest => if String.eqb k key then Some v else dict_lookup key rest
  end.

(** [key in x] for a string [key]: key membership on a dict, element
    membership on a list, substring test on a string, TypeError otherwise. *)
Definition py_contains (key : string) (x : Json) : attempt bool :=
  match x with
  | JDict items => inr (bool_decide (is_Some (dict_lookup key items)))
  | JList xs =>
      inr (existsb (fun y => match y with
                             | JStr s => String.eqb s key
                             | _ => false
                             end) xs)
  | JStr s => inr (bool_decide (is_Some (String.index 0 key s)))
  | _ => inl TypeError
  end.

(** [x[key]] for a string [key]: KeyError on a dict without the key,
    TypeError on anything that is not a dict. *)
Definition py_getitem (x : Json) (key : string) : attempt Json :=
  match x with
  | JDict items =>
      match dict_lookup key items with
      | Some v => inr v
      | None => inl KeyError
      end
  | _ => inl TypeError
  end.

(** [x[0]]: the first element of a list, the first character of a string,
    KeyError on a dict (its keys are strings), TypeError otherwise. *)
Definition py_getitem_0 (x : Json) : attempt Json :=
  match x with
  | JList (y :: _) => inr y
  | JList [] => inl SequenceIndexError
  | JStr (String c _) => inr (JStr (String c EmptyString))
  | JStr EmptyString => inl SequenceIndexError
  | JDict _ => inl KeyError
  | _ => inl TypeError
  end.

(** [len(x)] *)
Definition py_len (x : Json) : attempt nat :=
  match x with
  | JDict items => inr (length items)
  | JList xs => inr (length xs)
  | JStr s => inr (String.length s)
  | _ => inl TypeError
  end.

(** [session.get(url).json()] for each URL. *)
Record Session := mkSession {
  get_json : string -> attempt Json
}.

Definition API_BASE_URL : string := "https://apisb.etrade.com/v1/market".

(** [f"{API_BASE_URL}/quote/{symbol}.json"] *)
Definition quote_url (symbol : string) : string :=
  String.append API_BASE_URL
    (String.append "/quote/" (String.append symbol ".json")).

(** [pd.DataFrame(records)]: one row per record. *)
Definition pd_DataFrame (records : list Json) : list Json := records.

(** The names the module binds at top level: its imports, its constants and
    its functions. *)
Definition module_names : list string :=
  ["st"; "pd"; "requests"; "OAuth1Session"; "go"; "datetime"; "csv"; "os";
   "CONSUMER_KEY"; "CONSUMER_SECRET"; "OAUTH_BASE_URL"; "API_BASE_URL";
   "etrade_oauth"; "fetch_stock_data"; "calculate_ichimoku";
   "apply_trading_strategy"; "log_trade"; "plot_signals"; "main"].

Definition name_is_bound (name : string) : bool :=
  existsb (String.eqb name) module_names.

Inductive Fetched :=
| FetchReturns (data : option (list Json)) (w : World)
| FetchRaises (e : PyError) (w : World).

(** The [try] block of [fetch_stock_data], up to the choice between its two
    [return]s: [Some record] for the frame to build, [None] for the [else]
    branch. *)
Definition fetch_try (session : Session) (symbol : string)
  : attempt (option Json) :=
  data <~ get_json session (quote_url symbol) ;;
  has_response <~ py_contains "QuoteResponse" data ;;
  has_quotes <~
    (if has_response then
       response <~ py_getitem data "QuoteResponse" ;;
       has_data <~ py_contains "QuoteData" response ;;
       if has_data then
         response <~ py_getitem data "QuoteResponse" ;;
         quotes <~ py_getitem response "QuoteData" ;;
         n <~ py_len quotes ;;
         inr (0 <? n)
       else inr false
     else inr false) ;;
  if has_quotes then
    response <~ py_getitem data "QuoteResponse" ;;
    quotes <~ py_getitem response "QuoteData" ;;
    quote <~ py_getitem_0 quotes ;;
    record <~ py_getitem quote "All" ;;
    inr (Some record)
  else inr None.

(** The world a Streamlit call leaves. *)
Definition world_after (m : M unit) (w : World) : World :=
  match m w with
  | Returns _ w' => w'
  | Raises _ w' => w'
  end.

Definition fetch_stock_data (session : Session) (symbol : string)
  : World -> Fetched :=
  fun w =>
    match fetch_try session symbol with
    | inr (Some record) => FetchReturns (Some (pd_DataFrame [record])) w
    | inr None =>
        FetchReturns None
          (world_after
             (st_error [Lit "No data available for the given symbol."]) w)
    | inl e =>
        (* except Exception as e: the handler starts with logging.error(...) *)
        if name_is_bound "logging" then
          FetchReturns None
            (world_after (st_error [Lit "Failed to fetch stock data."]) w)
        else FetchRaises NameError w
    end.

(** A response with two quotes, and a session that answers it to any URL. *)
Definition sample_response : Json :=
  JDict [("QuoteResponse"%string,
          JDict [("QuoteData"%string,
                  JList [JDict [("dateTime"%string, JStr "15:17:00 EDT");
                                ("All"%string,
                                 JDict [("high"%string, JNum 12);
                                        ("low"%string, JNum 10);
                                        ("lastTrade"%string, JNum 11)])];
                         JDict [("All"%string, JDict [])]])])].

Definition sample_session : Session := mkSession (fun _ => inr sample_response).

(** ** Facts about the pandas fragment *)

Section Reduce.
Variable f : Q -> Q -> Q.
Variable R : Q -> Q -> Prop.
Hypothesis f_picks : forall x y, f x y = x \/ f x y = y.
Hypothesis f_bounds : forall x y, R x (f x y) /\ R y (f x y).
Hypothesis R_refl : forall x, R x x.
Hypothesis R_trans : forall x y z, R x y -> R y z -> R x z.



End Reduce.



Lemma observations_column f (df : DataFrame) :
  Pandas.observations (column f df) = f <$> df.
Proof.
  unfold Pandas.observations, column.
  induction df as [|r df IH]; [done|].
  change (f r :: omap id ((fun r => Some (f r)) <$> df) = f r :: (f <$> df)).
  f_equal. exact IH.
Qed.

Lemma window_at_column f w (df : DataFrame) i :
  Pandas.window_at w (column f df) i = column f (drop (S i - w) (take (S i) df)).
Proof.
  unfold Pandas.window_at, column. by rewrite fmap_drop, fmap_take.
Qed.

Lemma length_column f (df : DataFrame) : length (column f df) = length df.
Proof. unfold column. apply length_fmap. Qed.

Lemma lookup_column f (df : DataFrame) i :
  column f df !! i = (fun r => Some (f r)) <$> df !! i.
Proof. unfold column. apply list_lookup_fmap. Qed.

Lemma length_rolling f w s : length (Pandas.rolling f w s) = length s.
Proof. unfold Pandas.rolling. by rewrite length_fmap, length_seq. Qed.

Lemma length_add a b :
  length a = length b -> length (Pandas.add a b) = length a.
Proof. intros H. unfold Pandas.add. by apply length_zip_with_l_eq. Qed.

Lemma length_div a d : length (Pandas.div a d) = length a.
Proof. unfold Pandas.div. apply length_fmap. Qed.

Lemma length_shift k s : length (Pandas.shift k s) = length s.
Proof.
  unfold Pandas.shift. destruct (0 <=? k)%Z.
  - rewrite length_take, length_app, length_replicate. lia.
  - rewrite length_app, length_drop, length_replicate. lia.
Qed.

Lemma length_midline w df : length (midline w df) = length df.
Proof.
  unfold midline, Pandas.rolling_max, Pandas.rolling_min.
  rewrite length_div, length_add; rewrite !length_rolling, !length_column; done.
Qed.

(** Shifting forward by [k]: the first [k] positions are NaN, position [i]
    then holds what was at [i - k]. *)
Lemma lookup_shift_forward (k : nat) (s : Pandas.Series) i :
  i < length s ->
  Pandas.shift (Z.of_nat k) s !! i = if i <? k then Some None else s !! (i - k).
Proof.
  intros Hi. unfold Pandas.shift. cbv zeta.
  replace (0 <=? Z.of_nat k)%Z with true by (symmetry; apply Z.leb_le; lia).
  rewrite Nat2Z.id, lookup_take_lt by done.
  destruct (i <? k) eqn:E.
  - apply Nat.ltb_lt in E.
    rewrite lookup_app_l by (rewrite length_replicate; lia).
    by apply lookup_replicate_2.
  - apply Nat.ltb_ge in E.
    rewrite lookup_app_r by (rewrite length_replicate; lia).
    by rewrite length_replicate.
Qed.

(** Shifting backward by [k > 0]: position [i] holds what was at [i + k],
    and the last [k] positions are NaN. *)
Lemma lookup_shift_backward (k : nat) (s : Pandas.Series) i :
  0 < k -> i < length s ->
  Pandas.shift (- Z.of_nat k) s !! i
  = if i + k <? length s then s !! (i + k) else Some None.
Proof.
  intros Hk Hi. unfold Pandas.shift. cbv zeta.
  replace (0 <=? - Z.of_nat k)%Z with false by (symmetry; apply Z.leb_gt; lia).
  rewrite Z.opp_involutive, Nat2Z.id.
  destruct (i + k <? length s) eqn:E.
  - apply Nat.ltb_lt in E.
    rewrite lookup_app_l by (rewrite length_drop; lia).
    rewrite lookup_drop. f_equal. lia.
  - apply Nat.ltb_ge in E.
    rewrite lookup_app_r by (rewrite length_drop; lia).
    apply lookup_replicate_2. rewrite length_drop. lia.
Qed.

(** A rolling aggregate over a numeric column: NaN until the window is
    full, then an extremum of the column over the last [w] positions. *)
Section RollingColumn.
Variable f : Q -> Q -> Q.
Variable R : Q -> Q -> Prop.
Hypothesis f_picks : forall x y, f x y = x \/ f x y = y.
Hypothesis f_bounds : forall x y, R x (f x y) /\ R y (f x y).
Hypothesis R_refl : forall x, R x x.
Hypothesis R_trans : forall x y z, R x y -> R y z -> R x z.

Variable g : QuoteRow -> Q.
Variable w : nat.
Variable df : DataFrame.
Hypothesis w_pos : 0 < w.

Lemma rolling_column_eq i :
  i < length df ->
  Pandas.rolling f w (column g df) !! i
  = Some (if S i <? w then None
          else Pandas.reduce f (g <$> drop (S i - w) (take (S i) df))).
Proof.
  intros Hi. unfold Pandas.rolling.
  rewrite list_lookup_fmap, lookup_seq_lt by (by rewrite length_column).
  simpl option_map. cbv zeta. unfold fmap, option_fmap, option_map.
  rewrite Nat.add_0_l, window_at_column, observations_column.
  f_equal.
  rewrite length_fmap, length_drop, length_take.
  destruct (S i <? w) eqn:E.
  - apply Nat.ltb_lt in E.
    replace (_ <? w) with true; [done|].
    symmetry. apply Nat.ltb_lt. lia.
  - apply Nat.ltb_ge in E.
    replace (_ <? w) with false; [done|].
    symmetry. apply Nat.ltb_ge. lia.
Qed.

Lemma rolling_column_warmup i :
  i < length df -> S i < w ->
  Pandas.rolling f w (column g df) !! i = Some None.
Proof.
  intros Hi Hw. rewrite rolling_column_eq by done.
  by apply Nat.ltb_lt in Hw as ->.
Qed.

End RollingColumn.

Lemma lookup_add (a b : Pandas.Series) i x y :
  a !! i = Some x -> b !! i = Some y ->
  Pandas.add a b !! i
  = Some (match x, y with Some p, Some q => Some (p + q)%Q | _, _ => None end).
Proof.
  intros Ha Hb. unfold Pandas.add. rewrite lookup_zip_with, Ha. simpl.
  by rewrite Hb.
Qed.

Lemma lookup_div (a : Pandas.Series) d i x :
  a !! i = Some x ->
  Pandas.div a d !! i = Some ((fun p => (p / d)%Q) <$> x).
Proof.
  intros Ha. unfold Pandas.div. by rewrite list_lookup_fmap, Ha.
Qed.

(** The midline is NaN for the first [w - 1] positions and afterwards the
    midpoint of the highest high and the lowest low of the last [w] rows. *)
Lemma midline_warmup w df i :
  0 < w -> i < length df -> S i < w -> midline w df !! i = Some None.
Proof.
  intros Hw Hi Hlt. unfold midline.
  erewrite lookup_div; [|erewrite lookup_add; [reflexivity| |]].
  2: { by apply rolling_column_warmup. }
  2: { by apply rolling_column_warmup. }
  done.
Qed.


(** ** The indicator engine *)

Lemma calculate_ichimoku_enough (df : DataFrame) w :
  52 <= length df ->
  calculate_ichimoku (Some df) w
  = Returns (Some (midline 9 df, midline 26 df,
                   Pandas.shift 26 (Pandas.div
                     (Pandas.add (midline 9 df) (midline 26 df)) 2),
                   Pandas.shift 26 (midline 52 df),
                   Pandas.shift (-26) (column lastTrade df))) w.
Proof.
  intros Hn. unfold calculate_ichimoku, Pandas.len.
  apply Nat.leb_le in Hn as ->. reflexivity.
Qed.

Lemma calculate_ichimoku_short (df : DataFrame) w :
  length df < 52 ->
  calculate_ichimoku (Some df) w
  = Returns None (mkWorld (trade_log_csv w) (clock w)
                          (screen w ++ [ichimoku_error])).
Proof.
  intros Hn. unfold calculate_ichimoku, Pandas.len.
  apply Nat.leb_gt in Hn as ->. reflexivity.
Qed.

Lemma calculate_ichimoku_absent w :
  calculate_ichimoku None w
  = Returns None (mkWorld (trade_log_csv w) (clock w)
                          (screen w ++ [ichimoku_error])).
Proof. reflexivity. Qed.

(** The engine run on an 80-row frame, read at the first defined position of
    each series and at the position just before it (for the Chikou Span: at
    the last defined position and the one just after it). *)
Example ichimoku_boundaries :
  match calculate_ichimoku (Some (sample_frame 80)) fresh_world with
  | Returns (Some (t, k, a, b, c)) _ =>
      (t !! 7, t !! 8, k !! 24, k !! 25, a !! 50, a !! 51, b !! 76, b !! 77,
       c !! 53, c !! 54)
      = (Some None, Some (Some (14 # 2)%Q), Some None, Some (Some (14 # 2)%Q),
         Some None, Some (Some (56 # 8)%Q), Some None, Some (Some (14 # 2)%Q),
         Some (Some 179%Q), Some None)
  | _ => False
  end.
Proof. vm_compute. reflexivity. Qed.





(** C4. On a series of N >= 52 rows the engine returns a Chikou Span of
    length N which, at every position i <= N-27, holds the closing price of
    row i+26 and is NaN at every later position i > N-27, that is on the last
    26 positions.  The closing price the engine reads is the lastTrade column
    (the quote record's close, which the feed names lastTrade); wherever the
    frame's close column carries that same value, this is close[i+26]. *)
Theorem chikou_span_spec (df : DataFrame) (w : World) :
  52 <= length df ->
  exists tenkan_sen kijun_sen span_a span_b chikou,
    calculate_ichimoku (Some df) w
    = Returns (Some (tenkan_sen, kijun_sen, span_a, span_b, chikou)) w
    /\ length chikou = length df
    /\ (forall i, i <= length df - 27 ->
          exists r, df !! (i + 26) = Some r
                    /\ chikou !! i = Some (Some (lastTrade r)))
    /\ (forall i, length df - 27 < i -> i < length df ->
          chikou !! i = Some None)
    /\ ((forall r, r ∈ df -> close r = lastTrade r) ->
        forall i, i <= length df - 27 ->
          exists r, df !! (i + 26) = Some r
                    /\ chikou !! i = Some (Some (close r))).
Proof.
  intros Hn. do 5 eexists. split; [by apply calculate_ichimoku_enough|].
  assert (Hdef : forall i, i <= length df - 27 ->
            exists r, df !! (i + 26) = Some r
              /\ Pandas.shift (-26) (column lastTrade df) !! i
                 = Some (Some (lastTrade r))).
  { intros i Hi.
    destruct (df !! (i + 26)) as [r|] eqn:Er.
    2: { apply lookup_ge_None in Er. lia. }
    exists r. split; [done|].
    change (-26)%Z with (- Z.of_nat 26)%Z.
    rewrite lookup_shift_backward by (rewrite ?length_column; lia).
    rewrite length_column.
    replace (i + 26 <? length df) with true
      by (symmetry; apply Nat.ltb_lt; lia).
    by rewrite lookup_column, Er. }
  split; [by rewrite length_shift, length_column|].
  split; [exact Hdef|]. split.
  - intros i Hlo Hhi. change (-26)%Z with (- Z.of_nat 26)%Z.
    rewrite lookup_shift_backward by (rewrite ?length_column; lia).
    rewrite length_column.
    by replace (i + 26 <? length df) with false
      by (symmetry; apply Nat.ltb_ge; lia).
  - intros Halias i Hi. destruct (Hdef i Hi) as (r & Hr & Hc).
    exists r. split; [done|]. rewrite Halias; [done|].
    apply list_elem_of_lookup. by exists (i + 26).
Qed.

Lemma chikou_span_spec_witness :
  52 <= length (aliased_frame 60)
  /\ (forall r, r ∈ aliased_frame 60 -> close r = lastTrade r)
  /\ exists tenkan_sen kijun_sen span_a span_b chikou,
    calculate_ichimoku (Some (aliased_frame 60)) fresh_world
    = Returns (Some (tenkan_sen, kijun_sen, span_a, span_b, chikou)) fresh_world
    /\ length chikou = length (aliased_frame 60)
    /\ (forall i, i <= length (aliased_frame 60) - 27 ->
          exists r, aliased_frame 60 !! (i + 26) = Some r
                    /\ chikou !! i = Some (Some (close r)))
    /\ (forall i, length (aliased_frame 60) - 27 < i ->
          i < length (aliased_frame 60) -> chikou !! i = Some None).
Proof.
  assert (Halias : forall r, r ∈ aliased_frame 60 -> close r = lastTrade r).
  { intros r Hr. unfold aliased_frame in Hr.
    apply list_elem_of_fmap in Hr as (i & -> & _). reflexivity. }
  split; [vm_compute; lia|]. split; [exact Halias|].
  destruct (chikou_span_spec (aliased_frame 60) fresh_world)
    as (t & k & a & b & c & Hrun & Hlen & _ & Hnan & Hclose);
    [vm_compute; lia|].
  exists t, k, a, b, c. split; [exact Hrun|]. split; [exact Hlen|].
  split; [exact (Hclose Halias)|exact Hnan].
Defined.

(** C5. The engine returns five series exactly when the input has at least
    52 rows, and then each of them has the length of the input; on a shorter
    input it shows the insufficient-data alert and returns no series. *)
Theorem ichimoku_all_or_nothing (df : DataFrame) (w : World) :
  (52 <= length df ->
     exists tenkan_sen kijun_sen span_a span_b chikou,
       calculate_ichimoku (Some df) w
       = Returns (Some (tenkan_sen, kijun_sen, span_a, span_b, chikou)) w
       /\ length tenkan_sen = length df
       /\ length kijun_sen = length df
       /\ length span_a = length df
       /\ length span_b = length df
       /\ length chikou = length df)
  /\ (length df < 52 ->
        calculate_ichimoku (Some df) w
        = Returns None (mkWorld (trade_log_csv w) (clock w)
                                (screen w ++ [ichimoku_error])))
  /\ ((exists series w', calculate_ichimoku (Some df) w
                         = Returns (Some series) w')
      <-> 52 <= length df).
Proof.
  split; [|split].
  - intros Hn. do 5 eexists. split; [by apply calculate_ichimoku_enough|].
    rewrite !length_shift, length_div, length_add, !length_midline,
      ?length_column; [done|].
    by rewrite !length_midline.
  - apply calculate_ichimoku_short.
  - split.
    + intros (series & w' & Hrun).
      destruct (decide (52 <= length df)) as [|Hshort]; [done|].
      rewrite calculate_ichimoku_short in Hrun by lia. discriminate.
    + intros Hn. do 2 eexists. by apply calculate_ichimoku_enough.
Qed.

Lemma ichimoku_all_or_nothing_witness :
  (exists series w',
     calculate_ichimoku (Some (sample_frame 52)) fresh_world
     = Returns (Some series) w')
  /\ calculate_ichimoku (Some (sample_frame 51)) fresh_world
     = Returns None (mkWorld None 1000 [ichimoku_error]).
Proof.
  split.
  - apply (ichimoku_all_or_nothing (sample_frame 52) fresh_world).
    vm_compute; lia.
  - apply (proj1 (proj2 (ichimoku_all_or_nothing (sample_frame 51) fresh_world))).
    vm_compute; lia.
Defined.

(** ** The trade log *)

Lemma log_trade_run (ti : TradeInfo) (w : World) :
  log_trade ti w
  = Returns tt
      (mkWorld
         (Some (log_rows w
                ++ [trade_row (clock w) (ti_symbol ti) (ti_action ti)
                              (ti_price ti)]))
         (clock w)
         (screen w ++ [AlertSuccess
                         [Lit "Trade logged: ";
                          TradeInfoRepr (ti_symbol ti) (ti_action ti)
                                        (ti_price ti)]])).
Proof. reflexivity. Qed.

(** C8. An append returns normally and leaves a store that exists and holds
    the rows it held before, in their places, followed by exactly one new
    row whose cells are, in this order, the timestamp, the symbol, the action
    and the price; an absent store is created holding that single row.
    Nothing is compared with the rows already present, so an entry equal to
    an earlier one is appended all the same. *)
Theorem log_trade_appends (ti : TradeInfo) (w : World) :
  exists w',
    log_trade ti w = Returns tt w'
    /\ trade_log_csv w'
       = Some (log_rows w
               ++ [[CellTime (clock w); CellStr (ti_symbol ti);
                    CellStr (ti_action ti); CellNum (ti_price ti)]])
    /\ log_length w' = S (log_length w)
    /\ (forall i row, log_rows w !! i = Some row -> log_rows w' !! i = Some row)
    /\ last (log_rows w')
       = Some [CellTime (clock w); CellStr (ti_symbol ti);
               CellStr (ti_action ti); CellNum (ti_price ti)]
    /\ (trade_log_csv w = None ->
        trade_log_csv w'
        = Some [[CellTime (clock w); CellStr (ti_symbol ti);
                 CellStr (ti_action ti); CellNum (ti_price ti)]]).
Proof.
  eexists. split; [apply log_trade_run|]. simpl.
  split; [done|]. split.
  { unfold log_length, log_rows at 1. simpl. rewrite length_app. simpl. lia. }
  split.
  { intros i row Hrow. unfold log_rows at 1. simpl.
    by apply lookup_app_l_Some. }
  split.
  { unfold log_rows at 1. simpl. apply last_snoc. }
  intros Habs. unfold log_rows. by rewrite Habs.
Qed.

Lemma log_trade_appends_witness :
  exists w',
    log_trade (mkTradeInfo "XYZ" "hold" 5) fresh_world = Returns tt w'
    /\ trade_log_csv w'
       = Some [[CellTime 1000; CellStr "XYZ"; CellStr "hold"; CellNum 5]].
Proof.
  destruct (log_trade_appends (mkTradeInfo "XYZ" "hold" 5) fresh_world)
    as (w' & Hrun & _ & _ & _ & _ & Hnew).
  exists w'. split; [exact Hrun|]. apply Hnew. reflexivity.
Defined.

(** Logging the same decision twice leaves two rows. *)
Lemma log_trade_keeps_duplicates (ti : TradeInfo) (w : World) :
  exists w1 w2,
    log_trade ti w = Returns tt w1
    /\ log_trade ti w1 = Returns tt w2
    /\ log_rows w2
       = log_rows w
         ++ [trade_row (clock w) (ti_symbol ti) (ti_action ti) (ti_price ti);
             trade_row (clock w) (ti_symbol ti) (ti_action ti) (ti_price ti)].
Proof.
  do 2 eexists. split; [apply log_trade_run|]. split; [apply log_trade_run|].
  unfold log_rows at 1. simpl. unfold log_rows at 1. simpl.
  by rewrite <- app_assoc.
Qed.

(** ** The strategy evaluator *)

Lemma five_rows (df : DataFrame) :
  5 <= length df -> exists r0 r1 r2 r3 r4 rest, df = r0 :: r1 :: r2 :: r3 :: r4 :: rest.
Proof.
  intros Hn.
  destruct df as [|r0 [|r1 [|r2 [|r3 [|r4 rest]]]]]; simpl in Hn; try lia.
  by do 6 eexists.
Qed.

Lemma avg_close_of_mean r0 r1 r2 r3 r4 :
  (avg_close_of r0 r1 r2 r3 r4
   == (close r0 + close r1 + close r2 + close r3 + close r4) / 5)%Q.
Proof.
  unfold avg_close_of, Pandas.sum. simpl foldl.
  change (inject_Z 5) with 5%Q. field.
Qed.

Lemma strategy_runs r0 r1 r2 r3 r4 (rest : DataFrame) (tp : Q) (w : World) :
  exists act w',
    apply_trading_strategy (Some (r0 :: r1 :: r2 :: r3 :: r4 :: rest)) tp w
    = Returns tt w'
    /\ trade_log_csv w'
       = Some (log_rows w ++ [trade_row (clock w) (symbol r0) act tp])
    /\ match (avg_close_of r0 r1 r2 r3 r4 ?= open r0)%Q with
       | Gt => act = "buy call"%string
       | Lt => act = "buy put"%string
       | Eq => act = "hold"%string
       end.
Proof.
  unfold apply_trading_strategy.
  change (5 <=? Pandas.len (r0 :: r1 :: r2 :: r3 :: r4 :: rest)) with true.
  cbv iota.
  change (Pandas.mean (Pandas.head 5 (column close (r0 :: r1 :: r2 :: r3 :: r4 :: rest))))
    with (Some (avg_close_of r0 r1 r2 r3 r4)).
  unfold bind at 1.
  change (iloc (column open (r0 :: r1 :: r2 :: r3 :: r4 :: rest)) 0 w)
    with (Returns (Some (open r0)) w).
  cbv iota beta. unfold Pandas.gt, Pandas.lt.
  destruct (avg_close_of r0 r1 r2 r3 r4 ?= open r0)%Q;
    do 2 eexists; (split; [reflexivity|]); split; reflexivity.
Qed.

Lemma strategy_short (df : DataFrame) (tp : Q) (w : World) :
  length df < 5 ->
  apply_trading_strategy (Some df) tp w
  = Returns tt (mkWorld (trade_log_csv w) (clock w)
                        (screen w ++ [strategy_error])).
Proof.
  intros Hn. unfold apply_trading_strategy, Pandas.len.
  apply Nat.leb_gt in Hn as ->. reflexivity.
Qed.

Lemma strategy_absent (tp : Q) (w : World) :
  apply_trading_strategy None tp w
  = Returns tt (mkWorld (trade_log_csv w) (clock w)
                        (screen w ++ [strategy_error])).
Proof. reflexivity. Qed.



(** The three cases the specification lists: closes 10..14 against open 11,
    closes 10..6 against open 11, closes all 5 against open 5. *)

Example strategy_buy_call_case :
  apply_trading_strategy
    (Some [candle 11 10; candle 0 11; candle 0 12; candle 0 13; candle 0 14])
    3 fresh_world
  = Returns tt
      (mkWorld (Some [trade_row 1000 "XYZ" "buy call" 3]) 1000
         [AlertSuccess
            [Lit "Average close is above the first open; buying calls at $";
             Num 3];
          AlertSuccess [Lit "Trade logged: "; TradeInfoRepr "XYZ" "buy call" 3]]).
Proof. reflexivity. Qed.

Example strategy_buy_put_case :
  apply_trading_strategy
    (Some [candle 11 10; candle 0 9; candle 0 8; candle 0 7; candle 0 6])
    3 fresh_world
  = Returns tt
      (mkWorld (Some [trade_row 1000 "XYZ" "buy put" 3]) 1000
         [AlertSuccess
            [Lit "Average close is below the first open; buying puts at $";
             Num 3];
          AlertSuccess [Lit "Trade logged: "; TradeInfoRepr "XYZ" "buy put" 3]]).
Proof. reflexivity. Qed.

Example strategy_hold_case :
  apply_trading_strategy
    (Some [candle 5 5; candle 0 5; candle 0 5; candle 0 5; candle 0 5])
    3 fresh_world
  = Returns tt
      (mkWorld (Some [trade_row 1000 "XYZ" "hold" 3]) 1000
         [AlertInfo
            [Lit "Average close is equal to the first open; no action recommended."];
          AlertSuccess [Lit "Trade logged: "; TradeInfoRepr "XYZ" "hold" 3]]).
Proof. reflexivity. Qed.

(** C6, as amended. A call on a series of at least five rows returns and
    makes the trade log exactly one row longer, whatever the action; the
    price cell of the appended row is the target price passed in. *)
Theorem strategy_logs_one_priced_entry (df : DataFrame) (tp : Q) (w : World) :
  5 <= length df ->
  exists w' t sym act,
    apply_trading_strategy (Some df) tp w = Returns tt w'
    /\ log_rows w'
       = log_rows w ++ [[CellTime t; CellStr sym; CellStr act; CellNum tp]]
    /\ log_length w' = S (log_length w)
    /\ (act = "buy call" \/ act = "buy put" \/ act = "hold")%string.
Proof.
  intros Hn.
  destruct (five_rows df Hn) as (r0 & r1 & r2 & r3 & r4 & rest & ->).
  destruct (strategy_runs r0 r1 r2 r3 r4 rest tp w) as (act & w' & Hrun & Hlog & Hact).
  exists w', (clock w), (symbol r0), act.
  split; [done|].
  assert (Hrows : log_rows w' = log_rows w ++ [trade_row (clock w) (symbol r0) act tp]).
  { unfold log_rows at 1. by rewrite Hlog. }
  split; [done|]. split.
  - unfold log_length. rewrite Hrows, length_app. simpl. lia.
  - destruct (avg_close_of r0 r1 r2 r3 r4 ?= open r0)%Q; auto.
Qed.

Lemma strategy_logs_one_priced_entry_witness :
  5 <= length (sample_frame 5)
  /\ exists w' t sym act,
    apply_trading_strategy (Some (sample_frame 5)) 7 fresh_world = Returns tt w'
    /\ log_rows w'
       = log_rows fresh_world
         ++ [[CellTime t; CellStr sym; CellStr act; CellNum 7]]
    /\ log_length w' = S (log_length fresh_world)
    /\ (act = "buy call" \/ act = "buy put" \/ act = "hold")%string.
Proof.
  split; [vm_compute; lia|].
  apply (strategy_logs_one_priced_entry (sample_frame 5) 7 fresh_world).
  vm_compute; lia.
Defined.

(** C6 as stated fails: a call on the one-row frame returns with the trade
    log as long as before. *)
Lemma strategy_call_without_entry :
  apply_trading_strategy (Some (sample_frame 1)) 7 fresh_world
  = Returns tt (mkWorld None 1000 [strategy_error])
  /\ log_length (mkWorld None 1000 [strategy_error]) = log_length fresh_world
  /\ log_length (mkWorld None 1000 [strategy_error])
     <> S (log_length fresh_world).
Proof. split; [reflexivity|]. split; [reflexivity|]. discriminate. Qed.

(** C7. On a series of fewer than five rows the evaluator shows the
    insufficient-data alert and does nothing else: it returns no value,
    computes no action and calls [log_trade] with no decision, so the trade
    log and the clock are as before. *)
Theorem strategy_insufficient_data (df : DataFrame) (tp : Q) (w : World) :
  length df < 5 ->
  apply_trading_strategy (Some df) tp w
  = Returns tt
      (mkWorld (trade_log_csv w) (clock w)
         (screen w ++ [AlertError [Lit "Not enough data to apply the strategy."]])).
Proof. apply strategy_short. Qed.

Lemma strategy_insufficient_data_witness :
  length (sample_frame 4) < 5
  /\ apply_trading_strategy (Some (sample_frame 4)) 7 fresh_world
     = Returns tt
         (mkWorld None 1000
            [AlertError [Lit "Not enough data to apply the strategy."]]).
Proof.
  split; [vm_compute; lia|].
  apply (strategy_insufficient_data (sample_frame 4) 7 fresh_world).
  vm_compute; lia.
Defined.

(** C9. When the input is absent or has fewer than five rows the evaluator
    returns with the trade log exactly as it found it: still absent if it was
    absent, otherwise holding the same rows. *)
Theorem strategy_error_keeps_log (data : option DataFrame) (tp : Q) (w : World) :
  (data = None \/ exists df, data = Some df /\ length df < 5) ->
  exists w',
    apply_trading_strategy data tp w = Returns tt w'
    /\ trade_log_csv w' = trade_log_csv w.
Proof.
  intros [-> | (df & -> & Hn)]; eexists.
  - split; [apply strategy_absent|done].
  - split; [by apply strategy_short|done].
Qed.

Lemma strategy_error_keeps_log_witness :
  exists w',
    apply_trading_strategy (Some (sample_frame 3)) 7
      (mkWorld (Some [trade_row 1 "ABC" "hold" 2]) 1000 []) = Returns tt w'
    /\ trade_log_csv w' = Some [trade_row 1 "ABC" "hold" 2].
Proof.
  apply (strategy_error_keeps_log (Some (sample_frame 3)) 7
           (mkWorld (Some [trade_row 1 "ABC" "hold" 2]) 1000 [])).
  right. exists (sample_frame 3). split; [reflexivity|]. vm_compute; lia.
Defined.

(** C10. Two series of at least five rows whose first five closes and whose
    first opens are equal as numbers get the same action, whatever the two
    target prices, the remaining columns and rows, and the worlds the calls
    run in. *)
Theorem action_depends_on_first_candles
    (df1 df2 : DataFrame) (tp1 tp2 : Q) (w1 w2 : World) :
  5 <= length df1 -> 5 <= length df2 ->
  (forall i r1 r2, i < 5 -> df1 !! i = Some r1 -> df2 !! i = Some r2 ->
                   (close r1 == close r2)%Q) ->
  (forall r1 r2, df1 !! 0 = Some r1 -> df2 !! 0 = Some r2 ->
                 (open r1 == open r2)%Q) ->
  exists act t1 s1 t2 s2 w1' w2',
    apply_trading_strategy (Some df1) tp1 w1 = Returns tt w1'
    /\ apply_trading_strategy (Some df2) tp2 w2 = Returns tt w2'
    /\ trade_log_csv w1' = Some (log_rows w1 ++ [trade_row t1 s1 act tp1])
    /\ trade_log_csv w2' = Some (log_rows w2 ++ [trade_row t2 s2 act tp2]).
Proof.
  intros Hn1 Hn2 Hclose Hopen.
  destruct (five_rows df1 Hn1) as (a0 & a1 & a2 & a3 & a4 & rest1 & ->).
  destruct (five_rows df2 Hn2) as (b0 & b1 & b2 & b3 & b4 & rest2 & ->).
  destruct (strategy_runs a0 a1 a2 a3 a4 rest1 tp1 w1)
    as (act1 & w1' & Hrun1 & Hlog1 & Hact1).
  destruct (strategy_runs b0 b1 b2 b3 b4 rest2 tp2 w2)
    as (act2 & w2' & Hrun2 & Hlog2 & Hact2).
  assert (Havg : (avg_close_of a0 a1 a2 a3 a4 == avg_close_of b0 b1 b2 b3 b4)%Q).
  { rewrite !avg_close_of_mean.
    rewrite (Hclose 0 a0 b0), (Hclose 1 a1 b1), (Hclose 2 a2 b2),
      (Hclose 3 a3 b3), (Hclose 4 a4 b4); try done; try lia. }
  assert (Hop : (open a0 == open b0)%Q) by by apply Hopen.
  assert (Hcmp : (avg_close_of a0 a1 a2 a3 a4 ?= open a0)%Q
                 = (avg_close_of b0 b1 b2 b3 b4 ?= open b0)%Q)
    by (by apply Qcompare_comp).
  rewrite Hcmp in Hact1.
  assert (act1 = act2) as ->.
  { destruct (avg_close_of b0 b1 b2 b3 b4 ?= open b0)%Q; congruence. }
  by exists act2, (clock w1), (symbol a0), (clock w2), (symbol b0), w1', w2'.
Qed.

Lemma action_depends_on_first_candles_witness :
  (5 <= length frame_a /\ 5 <= length frame_b)
  /\ exists act t1 s1 t2 s2 w1' w2',
    apply_trading_strategy (Some frame_a) 1 fresh_world = Returns tt w1'
    /\ apply_trading_strategy (Some frame_b) 2 fresh_world = Returns tt w2'
    /\ trade_log_csv w1'
       = Some (log_rows fresh_world ++ [trade_row t1 s1 act 1])
    /\ trade_log_csv w2'
       = Some (log_rows fresh_world ++ [trade_row t2 s2 act 2]).
Proof.
  split; [split; vm_compute; lia|].
  apply (action_depends_on_first_candles frame_a frame_b 1 2
           fresh_world fresh_world).
  - vm_compute; lia.
  - vm_compute; lia.
  - intros i r1 r2 Hi.
    do 5 (destruct i as [|i]; [intros [= <-] [= <-]; by vm_compute|]). lia.
  - intros r1 r2 [= <-] [= <-]. by vm_compute.
Defined.

(** ** Further properties of the indicator engine *)

Lemma lookup_add_congr (a b a' b' : Pandas.Series) i :
  a !! i = a' !! i -> b !! i = b' !! i ->
  Pandas.add a b !! i = Pandas.add a' b' !! i.
Proof.
  intros Ha Hb. unfold Pandas.add. by rewrite !lookup_zip_with, Ha, Hb.
Qed.

Lemma lookup_div_congr (a a' : Pandas.Series) d i :
  a !! i = a' !! i -> Pandas.div a d !! i = Pandas.div a' d !! i.
Proof.
  intros Ha. unfold Pandas.div. by rewrite !list_lookup_fmap, Ha.
Qed.

Lemma lookup_shift_forward_congr (k : nat) (s s' : Pandas.Series) i :
  i < length s -> i < length s' ->
  (k <= i -> s !! (i - k) = s' !! (i - k)) ->
  Pandas.shift (Z.of_nat k) s !! i = Pandas.shift (Z.of_nat k) s' !! i.
Proof.
  intros Hs Hs' Heq. rewrite !lookup_shift_forward by done.
  destruct (i <? k) eqn:E; [done|]. apply Nat.ltb_ge in E. by apply Heq.
Qed.

(** A series is what another one starts with. *)
Lemma take_agrees (s s' : Pandas.Series) n :
  length s = n -> (forall i, i < n -> s' !! i = s !! i) -> take n s' = s.
Proof.
  intros Hlen Heq. apply list_eq. intros i.
  destruct (decide (i < n)) as [Hi|Hi].
  - rewrite lookup_take_lt by done. by apply Heq.
  - rewrite lookup_take_ge by lia. symmetry. apply lookup_ge_None. lia.
Qed.

(** The rolling aggregate at position [i] reads rows [0..i] only. *)
Lemma rolling_column_prefix f g w (df1 df2 : DataFrame) i :
  0 < w -> i < length df1 -> i < length df2 ->
  take (S i) df1 = take (S i) df2 ->
  Pandas.rolling f w (column g df1) !! i = Pandas.rolling f w (column g df2) !! i.
Proof.
  intros Hw H1 H2 Htake. rewrite !rolling_column_eq by done. by rewrite Htake.
Qed.

Lemma midline_prefix w (df1 df2 : DataFrame) i :
  0 < w -> i < length df1 -> i < length df2 ->
  take (S i) df1 = take (S i) df2 ->
  midline w df1 !! i = midline w df2 !! i.
Proof.
  intros Hw H1 H2 Htake. unfold midline.
  apply lookup_div_congr, lookup_add_congr; by apply rolling_column_prefix.
Qed.

Lemma midline_app w (df extra : DataFrame) i :
  0 < w -> i < length df ->
  midline w (df ++ extra) !! i = midline w df !! i.
Proof.
  intros Hw Hi. apply midline_prefix; [done| |done|].
  - rewrite length_app. lia.
  - apply take_app_le. lia.
Qed.

Lemma length_senkou_source df : length (senkou_source df) = length df.
Proof.
  unfold senkou_source.
  rewrite length_div, length_add; rewrite !length_midline; done.
Qed.

Lemma senkou_source_app (df extra : DataFrame) i :
  i < length df ->
  senkou_source (df ++ extra) !! i = senkou_source df !! i.
Proof.
  intros Hi. unfold senkou_source.
  apply lookup_div_congr, lookup_add_congr; apply midline_app; lia.
Qed.

Lemma calculate_ichimoku_enough' (df : DataFrame) w :
  52 <= length df ->
  calculate_ichimoku (Some df) w
  = Returns (Some (midline 9 df, midline 26 df,
                   Pandas.shift (Z.of_nat 26) (senkou_source df),
                   Pandas.shift (Z.of_nat 26) (midline 52 df),
                   Pandas.shift (- Z.of_nat 26) (column lastTrade df))) w.
Proof. apply calculate_ichimoku_enough. Qed.

(** X1. Rows appended to a series of at least 52 rows never revise what the
    engine has already computed for Tenkan-sen, Kijun-sen and the two Senkou
    Spans: on the longer series, these four series start with exactly the
    values they have on the shorter one. *)
Theorem causal_series_keep_under_append (df extra : DataFrame) (w : World) :
  52 <= length df ->
  exists t k a b c t' k' a' b' c',
    calculate_ichimoku (Some df) w = Returns (Some (t, k, a, b, c)) w
    /\ calculate_ichimoku (Some (df ++ extra)) w
       = Returns (Some (t', k', a', b', c')) w
    /\ take (length df) t' = t
    /\ take (length df) k' = k
    /\ take (length df) a' = a
    /\ take (length df) b' = b.
Proof.
  intros Hn.
  assert (Hn' : 52 <= length (df ++ extra)) by (rewrite length_app; lia).
  do 10 eexists.
  split; [by apply calculate_ichimoku_enough'|].
  split; [by apply calculate_ichimoku_enough'|].
  split; [|split; [|split]].
  - apply take_agrees; [apply length_midline|].
    intros i Hi. apply midline_app; lia.
  - apply take_agrees; [apply length_midline|].
    intros i Hi. apply midline_app; lia.
  - apply take_agrees; [by rewrite length_shift, length_senkou_source|].
    intros i Hi. apply lookup_shift_forward_congr.
    + rewrite length_senkou_source, length_app. lia.
    + by rewrite length_senkou_source.
    + intros Hge. apply senkou_source_app. lia.
  - apply take_agrees; [by rewrite length_shift, length_midline|].
    intros i Hi. apply lookup_shift_forward_congr.
    + rewrite length_midline, length_app. lia.
    + by rewrite length_midline.
    + intros Hge. apply midline_app; lia.
Qed.

Lemma causal_series_keep_under_append_witness :
  52 <= length (sample_frame 60)
  /\ exists t k a b c t' k' a' b' c',
    calculate_ichimoku (Some (sample_frame 60)) fresh_world
    = Returns (Some (t, k, a, b, c)) fresh_world
    /\ calculate_ichimoku (Some (sample_frame 60 ++ aliased_frame 30)) fresh_world
       = Returns (Some (t', k', a', b', c')) fresh_world
    /\ take (length (sample_frame 60)) t' = t
    /\ take (length (sample_frame 60)) k' = k
    /\ take (length (sample_frame 60)) a' = a
    /\ take (length (sample_frame 60)) b' = b.
Proof.
  split; [vm_compute; lia|].
  apply (causal_series_keep_under_append (sample_frame 60) (aliased_frame 30)
           fresh_world).
  vm_compute; lia.
Defined.

(** X2. The Chikou Span, by contrast, is revised by appended rows: its
    values at positions i with i+26 inside the shorter series stay, while
    each appended row j gives position N+j-26 the row's lastTrade, a position
    that was NaN on the shorter series when j < 26. *)
Theorem chikou_fills_in_under_append (df extra : DataFrame) (w : World) :
  52 <= length df ->
  exists t k a b c t' k' a' b' c',
    calculate_ichimoku (Some df) w = Returns (Some (t, k, a, b, c)) w
    /\ calculate_ichimoku (Some (df ++ extra)) w
       = Returns (Some (t', k', a', b', c')) w
    /\ (forall i, i + 26 < length df -> c' !! i = c !! i)
    /\ (forall j r, extra !! j = Some r ->
          c' !! (length df + j - 26) = Some (Some (lastTrade r))
          /\ (j < 26 -> c !! (length df + j - 26) = Some None)).
Proof.
  intros Hn.
  assert (Hn' : 52 <= length (df ++ extra)) by (rewrite length_app; lia).
  do 10 eexists.
  split; [by apply calculate_ichimoku_enough'|].
  split; [by apply calculate_ichimoku_enough'|].
  split.
  - intros i Hi.
    rewrite !lookup_shift_backward by (rewrite ?length_column, ?length_app; lia).
    rewrite !length_column, length_app.
    replace (i + 26 <? length df + length extra) with true
      by (symmetry; apply Nat.ltb_lt; lia).
    replace (i + 26 <? length df) with true
      by (symmetry; apply Nat.ltb_lt; lia).
    rewrite !lookup_column. by rewrite lookup_app_l by lia.
  - intros j r Hr. apply lookup_lt_Some in Hr as Hj. split.
    + rewrite lookup_shift_backward
        by (rewrite ?length_column, ?length_app; lia).
      rewrite length_column, length_app.
      replace (length df + j - 26 + 26 <? length df + length extra) with true
        by (symmetry; apply Nat.ltb_lt; lia).
      rewrite lookup_column.
      replace (length df + j - 26 + 26) with (length df + j) by lia.
      rewrite lookup_app_r by lia.
      replace (length df + j - length df) with j by lia.
      by rewrite Hr.
    + intros Hlt.
      rewrite lookup_shift_backward by (rewrite ?length_column; lia).
      rewrite length_column.
      by replace (length df + j - 26 + 26 <? length df) with false
        by (symmetry; apply Nat.ltb_ge; lia).
Qed.

Lemma chikou_fills_in_under_append_witness :
  52 <= length (sample_frame 60)
  /\ exists t k a b c t' k' a' b' c',
    calculate_ichimoku (Some (sample_frame 60)) fresh_world
    = Returns (Some (t, k, a, b, c)) fresh_world
    /\ calculate_ichimoku (Some (sample_frame 60 ++ aliased_frame 30)) fresh_world
       = Returns (Some (t', k', a', b', c')) fresh_world
    /\ (forall i, i + 26 < length (sample_frame 60) -> c' !! i = c !! i)
    /\ (forall j r, aliased_frame 30 !! j = Some r ->
          c' !! (length (sample_frame 60) + j - 26) = Some (Some (lastTrade r))
          /\ (j < 26 ->
              c !! (length (sample_frame 60) + j - 26) = Some None)).
Proof.
  split; [vm_compute; lia|].
  apply (chikou_fills_in_under_append (sample_frame 60) (aliased_frame 30)
           fresh_world).
  vm_compute; lia.
Defined.

(** X3. The last 26 rows of a series never reach the Senkou Spans: two
    series of the same length (at least 52) that differ only in their last 26
    rows or fewer get the same Senkou Span A and the same Senkou Span B. *)
Theorem senkou_spans_ignore_last_rows
    (df tail1 tail2 : DataFrame) (w : World) :
  52 <= length df + length tail1 ->
  length tail1 = length tail2 ->
  length tail1 <= 26 ->
  exists t1 k1 a1 b1 c1 t2 k2 a2 b2 c2,
    calculate_ichimoku (Some (df ++ tail1)) w
    = Returns (Some (t1, k1, a1, b1, c1)) w
    /\ calculate_ichimoku (Some (df ++ tail2)) w
       = Returns (Some (t2, k2, a2, b2, c2)) w
    /\ a1 = a2
    /\ b1 = b2.
Proof.
  intros Hn Hlen Hshort.
  assert (H1 : 52 <= length (df ++ tail1)) by (rewrite length_app; lia).
  assert (H2 : 52 <= length (df ++ tail2)) by (rewrite length_app; lia).
  do 10 eexists.
  split; [by apply calculate_ichimoku_enough'|].
  split; [by apply calculate_ichimoku_enough'|].
  split.
  - apply list_eq. intros i.
    destruct (decide (i < length df + length tail1)) as [Hi|Hi].
    + apply lookup_shift_forward_congr.
      * rewrite length_senkou_source, length_app. lia.
      * rewrite length_senkou_source, length_app. lia.
      * intros Hge. rewrite !senkou_source_app by lia. done.
    + rewrite !(proj2 (lookup_ge_None _ _)); [done| |];
        rewrite length_shift, length_senkou_source, length_app; lia.
  - apply list_eq. intros i.
    destruct (decide (i < length df + length tail1)) as [Hi|Hi].
    + apply lookup_shift_forward_congr.
      * rewrite length_midline, length_app. lia.
      * rewrite length_midline, length_app. lia.
      * intros Hge. rewrite !midline_app by lia. done.
    + rewrite !(proj2 (lookup_ge_None _ _)); [done| |];
        rewrite length_shift, length_midline, length_app; lia.
Qed.

Lemma senkou_spans_ignore_last_rows_witness :
  (52 <= length (sample_frame 60) + length (sample_frame 26)
   /\ length (sample_frame 26) = length (aliased_frame 26)
   /\ length (sample_frame 26) <= 26)
  /\ exists t1 k1 a1 b1 c1 t2 k2 a2 b2 c2,
    calculate_ichimoku (Some (sample_frame 60 ++ sample_frame 26)) fresh_world
    = Returns (Some (t1, k1, a1, b1, c1)) fresh_world
    /\ calculate_ichimoku (Some (sample_frame 60 ++ aliased_frame 26)) fresh_world
       = Returns (Some (t2, k2, a2, b2, c2)) fresh_world
    /\ a1 = a2
    /\ b1 = b2.
Proof.
  split; [repeat split; vm_compute; lia|].
  apply (senkou_spans_ignore_last_rows (sample_frame 60) (sample_frame 26)
           (aliased_frame 26) fresh_world); vm_compute; lia.
Defined.

(** X4. With 52 to 77 rows the engine succeeds but Senkou Span B holds no
    number at all: it is NaN at every position. *)
Theorem span_b_empty_below_78_rows (df : DataFrame) (w : World) :
  52 <= length df -> length df <= 77 ->
  exists t k a b c,
    calculate_ichimoku (Some df) w = Returns (Some (t, k, a, b, c)) w
    /\ b = replicate (length df) None.
Proof.
  intros Hn Hmax. do 5 eexists.
  split; [by apply calculate_ichimoku_enough'|].
  apply list_eq. intros i.
  destruct (decide (i < length df)) as [Hi|Hi].
  - rewrite lookup_shift_forward by (rewrite length_midline; lia).
    rewrite lookup_replicate_2 by done.
    destruct (i <? 26) eqn:E; [done|]. apply Nat.ltb_ge in E.
    apply midline_warmup; lia.
  - rewrite !(proj2 (lookup_ge_None _ _)); [done| |].
    + rewrite length_replicate. lia.
    + rewrite length_shift, length_midline. lia.
Qed.

Lemma span_b_empty_below_78_rows_witness :
  (52 <= length (sample_frame 77) /\ length (sample_frame 77) <= 77)
  /\ exists t k a b c,
    calculate_ichimoku (Some (sample_frame 77)) fresh_world
    = Returns (Some (t, k, a, b, c)) fresh_world
    /\ b = replicate (length (sample_frame 77)) None.
Proof.
  split; [split; vm_compute; lia|].
  apply (span_b_empty_below_78_rows (sample_frame 77) fresh_world);
    vm_compute; lia.
Defined.

Lemma column_fmap f (df : DataFrame) : column f df = Some <$> (f <$> df).
Proof. unfold column. by rewrite <- list_fmap_compose. Qed.

(** X5. The engine reads the high, low and lastTrade columns and the number
    of rows, nothing else: two frames with the same three columns get the
    same outcome, whatever their open, close and symbol columns hold. *)
Theorem ichimoku_reads_three_columns (df1 df2 : DataFrame) (w : World) :
  high <$> df1 = high <$> df2 ->
  low <$> df1 = low <$> df2 ->
  lastTrade <$> df1 = lastTrade <$> df2 ->
  calculate_ichimoku (Some df1) w = calculate_ichimoku (Some df2) w.
Proof.
  intros Hh Hl Hc.
  assert (Hlen : length df1 = length df2).
  { rewrite <- (length_fmap high df1), Hh. apply length_fmap. }
  unfold calculate_ichimoku, Pandas.len.
  rewrite !(column_fmap _ df1), Hh, Hl, Hc, Hlen, <- !column_fmap.
  done.
Qed.

Lemma ichimoku_reads_three_columns_witness :
  calculate_ichimoku (Some (sample_frame 60)) fresh_world
  = calculate_ichimoku
      (Some ((fun r => mkQuoteRow "OTHER" 1 (high r) (low r) 2 (lastTrade r))
               <$> sample_frame 60)) fresh_world.
Proof.
  apply (ichimoku_reads_three_columns (sample_frame 60)
           ((fun r => mkQuoteRow "OTHER" 1 (high r) (low r) 2 (lastTrade r))
              <$> sample_frame 60) fresh_world);
    by rewrite <- list_fmap_compose.
Defined.












(** X14. The first 26 rows of a series never reach the Chikou Span: two
    series of the same length (at least 52) that differ only in their first
    26 rows or fewer get the same Chikou Span. *)
Theorem chikou_ignores_first_rows (head1 head2 df : DataFrame) (w : World) :
  52 <= length head1 + length df ->
  length head1 = length head2 ->
  length head1 <= 26 ->
  exists t1 k1 a1 b1 c1 t2 k2 a2 b2 c2,
    calculate_ichimoku (Some (head1 ++ df)) w
    = Returns (Some (t1, k1, a1, b1, c1)) w
    /\ calculate_ichimoku (Some (head2 ++ df)) w
       = Returns (Some (t2, k2, a2, b2, c2)) w
    /\ c1 = c2.
Proof.
  intros Hn Hlen Hshort.
  assert (H1 : 52 <= length (head1 ++ df)) by (rewrite length_app; lia).
  assert (H2 : 52 <= length (head2 ++ df)) by (rewrite length_app; lia).
  do 10 eexists.
  split; [by apply calculate_ichimoku_enough'|].
  split; [by apply calculate_ichimoku_enough'|].
  apply list_eq. intros i.
  destruct (decide (i < length head1 + length df)) as [Hi|Hi].
  - rewrite !lookup_shift_backward
      by (rewrite ?length_column, ?length_app; lia).
    rewrite !length_column, !length_app, <- Hlen.
    destruct (i + 26 <? length head1 + length df); [|done].
    rewrite !lookup_column, !lookup_app_r by lia. by rewrite <- Hlen.
  - rewrite !(proj2 (lookup_ge_None _ _)); [done| |];
      rewrite length_shift, length_column, length_app; lia.
Qed.

Lemma chikou_ignores_first_rows_witness :
  (52 <= length (sample_frame 26) + length (sample_frame 60)
   /\ length (sample_frame 26) = length (aliased_frame 26)
   /\ length (sample_frame 26) <= 26)
  /\ exists t1 k1 a1 b1 c1 t2 k2 a2 b2 c2,
    calculate_ichimoku (Some (sample_frame 26 ++ sample_frame 60)) fresh_world
    = Returns (Some (t1, k1, a1, b1, c1)) fresh_world
    /\ calculate_ichimoku (Some (aliased_frame 26 ++ sample_frame 60)) fresh_world
       = Returns (Some (t2, k2, a2, b2, c2)) fresh_world
    /\ c1 = c2.
Proof.
  split; [repeat split; vm_compute; lia|].
  apply (chikou_ignores_first_rows (sample_frame 26) (aliased_frame 26)
           (sample_frame 60) fresh_world); vm_compute; lia.
Defined.

(** ** Further properties of the strategy evaluator *)

(** The complete outcome of a call on five rows or more. *)
Lemma strategy_world r0 r1 r2 r3 r4 (rest : DataFrame) (tp : Q) (w : World) :
  exists act,
    apply_trading_strategy (Some (r0 :: r1 :: r2 :: r3 :: r4 :: rest)) tp w
    = Returns tt
        (mkWorld
           (Some (log_rows w ++ [trade_row (clock w) (symbol r0) act tp]))
           (clock w)
           (screen w
            ++ [decision_alert act tp;
                AlertSuccess [Lit "Trade logged: ";
                              TradeInfoRepr (symbol r0) act tp]]))
    /\ match (avg_close_of r0 r1 r2 r3 r4 ?= open r0)%Q with
       | Gt => act = "buy call"%string
       | Lt => act = "buy put"%string
       | Eq => act = "hold"%string
       end.
Proof.
  unfold apply_trading_strategy.
  change (5 <=? Pandas.len (r0 :: r1 :: r2 :: r3 :: r4 :: rest)) with true.
  cbv iota.
  change (Pandas.mean (Pandas.head 5 (column close (r0 :: r1 :: r2 :: r3 :: r4 :: rest))))
    with (Some (avg_close_of r0 r1 r2 r3 r4)).
  unfold bind at 1.
  change (iloc (column open (r0 :: r1 :: r2 :: r3 :: r4 :: rest)) 0 w)
    with (Returns (Some (open r0)) w).
  cbv iota beta. unfold Pandas.gt, Pandas.lt.
  destruct (avg_close_of r0 r1 r2 r3 r4 ?= open r0)%Q;
    [exists "hold"%string|exists "buy put"%string|exists "buy call"%string];
    (split; [|reflexivity]);
    match goal with
    | |- _ = Returns tt (mkWorld _ _ (?s ++ [?a; ?b])) =>
        replace (s ++ [a; b]) with ((s ++ [a]) ++ [b])
          by (by rewrite <- app_assoc)
    end;
    reflexivity.
Qed.




(** X11. On five rows or more the evaluator shows what it stores: it adds
    exactly two alerts, the decision alert of the action (an info alert
    without price for hold, a success alert quoting the target price
    otherwise) and then "Trade logged" with the symbol of the first row, the
    action and the target price, and these are the very values of the row it
    appends; nothing else in the world changes. *)
Theorem strategy_shows_what_it_logs (df : DataFrame) (tp : Q) (w : World) :
  5 <= length df ->
  exists row0 act,
    df !! 0 = Some row0
    /\ (act = "buy call" \/ act = "buy put" \/ act = "hold")%string
    /\ apply_trading_strategy (Some df) tp w
       = Returns tt
           (mkWorld
              (Some (log_rows w
                     ++ [[CellTime (clock w); CellStr (symbol row0);
                          CellStr act; CellNum tp]]))
              (clock w)
              (screen w
               ++ [decision_alert act tp;
                   AlertSuccess [Lit "Trade logged: ";
                                 TradeInfoRepr (symbol row0) act tp]])).
Proof.
  intros Hn.
  destruct (five_rows df Hn) as (r0 & r1 & r2 & r3 & r4 & rest & ->).
  destruct (strategy_world r0 r1 r2 r3 r4 rest tp w) as (act & Hrun & Hact).
  exists r0, act. split; [done|]. split; [|exact Hrun].
  destruct (avg_close_of r0 r1 r2 r3 r4 ?= open r0)%Q; auto.
Qed.

Lemma strategy_shows_what_it_logs_witness :
  5 <= length frame_b
  /\ exists row0 act,
    frame_b !! 0 = Some row0
    /\ (act = "buy call" \/ act = "buy put" \/ act = "hold")%string
    /\ apply_trading_strategy (Some frame_b) 9 fresh_world
       = Returns tt
           (mkWorld
              (Some (log_rows fresh_world
                     ++ [[CellTime (clock fresh_world); CellStr (symbol row0);
                          CellStr act; CellNum 9]]))
              (clock fresh_world)
              (screen fresh_world
               ++ [decision_alert act 9;
                   AlertSuccess [Lit "Trade logged: ";
                                 TradeInfoRepr (symbol row0) act 9]])).
Proof.
  split; [vm_compute; lia|].
  apply (strategy_shows_what_it_logs frame_b 9 fresh_world). vm_compute; lia.
Defined.

(** X12. Two calls in a row on frames of five rows or more leave their two
    rows at the end of the log in call order, after everything that was
    there, each with its own target price. *)
Theorem strategy_calls_log_in_order
    (df1 df2 : DataFrame) (tp1 tp2 : Q) (w : World) :
  5 <= length df1 -> 5 <= length df2 ->
  exists w' t1 s1 a1 t2 s2 a2,
    (apply_trading_strategy (Some df1) tp1 ;;;
     apply_trading_strategy (Some df2) tp2) w = Returns tt w'
    /\ log_rows w'
       = log_rows w ++ [trade_row t1 s1 a1 tp1; trade_row t2 s2 a2 tp2].
Proof.
  intros Hn1 Hn2.
  destruct (five_rows df1 Hn1) as (a0 & a1 & a2 & a3 & a4 & rest1 & ->).
  destruct (five_rows df2 Hn2) as (b0 & b1 & b2 & b3 & b4 & rest2 & ->).
  destruct (strategy_world a0 a1 a2 a3 a4 rest1 tp1 w) as (act1 & Hrun1 & _).
  unfold bind. rewrite Hrun1.
  match goal with |- context [apply_trading_strategy _ tp2 ?w1] =>
    destruct (strategy_world b0 b1 b2 b3 b4 rest2 tp2 w1) as (act2 & Hrun2 & _)
  end.
  rewrite Hrun2. do 7 eexists. split; [reflexivity|].
  unfold log_rows at 1. simpl. unfold log_rows at 1. simpl.
  rewrite <- app_assoc. reflexivity.
Qed.

Lemma strategy_calls_log_in_order_witness :
  (5 <= length frame_a /\ 5 <= length frame_b)
  /\ exists w' t1 s1 a1 t2 s2 a2,
    (apply_trading_strategy (Some frame_a) 1 ;;;
     apply_trading_strategy (Some frame_b) 2) fresh_world = Returns tt w'
    /\ log_rows w'
       = log_rows fresh_world
         ++ [trade_row t1 s1 a1 1; trade_row t2 s2 a2 2].
Proof.
  split; [split; vm_compute; lia|].
  apply (strategy_calls_log_in_order frame_a frame_b 1 2 fresh_world);
    vm_compute; lia.
Defined.

(** The trade log and the result of a call depend on the log and the clock
    it starts from, not on the alerts already on screen. *)
Lemma strategy_log_frame (data : option DataFrame) (tp : Q) (w v : World) :
  trade_log_csv w = trade_log_csv v -> clock w = clock v ->
  exists w' v',
    apply_trading_strategy data tp w = Returns tt w'
    /\ apply_trading_strategy data tp v = Returns tt v'
    /\ trade_log_csv w' = trade_log_csv v'.
Proof.
  intros Hlog Hclock. destruct data as [df|].
  2: { do 2 eexists. split; [apply strategy_absent|].
       split; [apply strategy_absent|]. done. }
  destruct (decide (5 <= length df)) as [Hn|Hn].
  - destruct (five_rows df Hn) as (r0 & r1 & r2 & r3 & r4 & rest & ->).
    destruct (strategy_world r0 r1 r2 r3 r4 rest tp w) as (act1 & Hrun1 & Hact1).
    destruct (strategy_world r0 r1 r2 r3 r4 rest tp v) as (act2 & Hrun2 & Hact2).
    assert (act1 = act2) as ->.
    { destruct (avg_close_of r0 r1 r2 r3 r4 ?= open r0)%Q; congruence. }
    do 2 eexists. split; [exact Hrun1|]. split; [exact Hrun2|]. simpl.
    unfold log_rows. by rewrite Hlog, Hclock.
  - do 2 eexists. split; [apply strategy_short; lia|].
    split; [apply strategy_short; lia|]. done.
Qed.

(** X13. Running the engine first, as the application does, changes nothing
    for the strategy: the engine returns without touching the trade log, and
    the strategy run after it leaves the same trade log as the strategy run
    alone, whatever the input. *)
Theorem engine_then_strategy (data : option DataFrame) (tp : Q) (w : World) :
  exists res w1 w2 w2',
    calculate_ichimoku data w = Returns res w1
    /\ trade_log_csv w1 = trade_log_csv w
    /\ apply_trading_strategy data tp w1 = Returns tt w2
    /\ apply_trading_strategy data tp w = Returns tt w2'
    /\ trade_log_csv w2 = trade_log_csv w2'.
Proof.
  assert (Hengine : exists res w1,
             calculate_ichimoku data w = Returns res w1
             /\ trade_log_csv w1 = trade_log_csv w /\ clock w1 = clock w).
  { destruct data as [df|].
    - destruct (decide (52 <= length df)) as [Hn|Hn].
      + do 2 eexists. split; [by apply calculate_ichimoku_enough|done].
      + do 2 eexists. split; [apply calculate_ichimoku_short; lia|done].
    - do 2 eexists. split; [apply calculate_ichimoku_absent|done]. }
  destruct Hengine as (res & w1 & Hrun & Hlog & Hclock).
  destruct (strategy_log_frame data tp w1 w Hlog Hclock)
    as (w2 & w2' & H1 & H2 & Heq).
  by exists res, w1, w2, w2'.
Qed.

(** ** The quote fetch *)

Lemma fetch_try_first_quote session symbol items response_items quote_items
    others :
  get_json session (quote_url symbol) = inr (JDict items) ->
  dict_lookup "QuoteResponse" items = Some (JDict response_items) ->
  dict_lookup "QuoteData" response_items
  = Some (JList (JDict quote_items :: others)) ->
  fetch_try session symbol
  = match dict_lookup "All" quote_items with
    | Some record => inr (Some record)
    | None => inl KeyError
    end.
Proof.
  intros Hget Hresp Hdata. unfold fetch_try. rewrite Hget. simpl.
  rewrite Hresp. simpl. rewrite Hdata. simpl.
  by destruct (dict_lookup "All" quote_items).
Qed.

(** X15. When the response is an object whose QuoteResponse holds a QuoteData
    list that starts with an object having the key All, the fetch returns a
    frame of exactly one row built from that All record; the quotes after the
    first one never matter, and nothing is shown. *)
Theorem fetch_takes_first_quote (session : Session) (symbol : string)
    (w : World) items response_items quote_items others record :
  get_json session (quote_url symbol) = inr (JDict items) ->
  dict_lookup "QuoteResponse" items = Some (JDict response_items) ->
  dict_lookup "QuoteData" response_items
  = Some (JList (JDict quote_items :: others)) ->
  dict_lookup "All" quote_items = Some record ->
  fetch_stock_data session symbol w = FetchReturns (Some [record]) w.
Proof.
  intros Hget Hresp Hdata Hall. unfold fetch_stock_data.
  rewrite (fetch_try_first_quote _ _ _ _ _ _ Hget Hresp Hdata), Hall.
  reflexivity.
Qed.

Lemma fetch_takes_first_quote_witness :
  fetch_stock_data sample_session "AAPL" fresh_world
  = FetchReturns
      (Some [JDict [("high"%string, JNum 12); ("low"%string, JNum 10);
                    ("lastTrade"%string, JNum 11)]])
      fresh_world.
Proof.
  eapply (fetch_takes_first_quote sample_session "AAPL" fresh_world);
    reflexivity.
Defined.

(** X16. When the response is an object without QuoteResponse, or its
    QuoteResponse is an object without QuoteData or with an empty QuoteData
    list, the fetch returns no frame and shows "No data available for the
    given symbol." and nothing else. *)
Theorem fetch_reports_no_data (session : Session) (symbol : string)
    (w : World) items :
  get_json session (quote_url symbol) = inr (JDict items) ->
  (dict_lookup "QuoteResponse" items = None
   \/ exists response_items,
        dict_lookup "QuoteResponse" items = Some (JDict response_items)
        /\ (dict_lookup "QuoteData" response_items = None
            \/ dict_lookup "QuoteData" response_items = Some (JList []))) ->
  fetch_stock_data session symbol w
  = FetchReturns None
      (mkWorld (trade_log_csv w) (clock w)
         (screen w
          ++ [AlertError [Lit "No data available for the given symbol."]])).
Proof.
  intros Hget Hshape. unfold fetch_stock_data, fetch_try. rewrite Hget. simpl.
  destruct Hshape as [Hnone | (ri & Hresp & [Hnone | Hempty])].
  - by rewrite Hnone.
  - rewrite Hresp. simpl. by rewrite Hnone.
  - rewrite Hresp. simpl. by rewrite Hempty.
Qed.

Lemma fetch_reports_no_data_witness :
  fetch_stock_data
    (mkSession (fun _ => inr (JDict [("QuoteResponse"%string,
                                      JDict [("QuoteData"%string, JList [])])])))
    "AAPL" fresh_world
  = FetchReturns None
      (mkWorld None 1000
         [AlertError [Lit "No data available for the given symbol."]]).
Proof.
  eapply (fetch_reports_no_data _ "AAPL" fresh_world); [reflexivity|].
  right. eexists. split; [reflexivity|]. by right.
Defined.



(** X18. A frame the fetch returns always has exactly one row, and the fetch
    has shown nothing.  Read as quote rows in any way whatever, such a frame
    is too short for both consumers: the engine shows its error and returns
    no series, the strategy shows its error and leaves the trade log as it
    is. *)
Theorem fetched_frame_is_too_short (session : Session) (symbol : string)
    (w w' : World) (raw : list Json) (row_of : Json -> QuoteRow)
    (tp : Q) (v : World) :
  fetch_stock_data session symbol w = FetchReturns (Some raw) w' ->
  length raw = 1
  /\ w' = w
  /\ calculate_ichimoku (Some (row_of <$> raw)) v
     = Returns None (mkWorld (trade_log_csv v) (clock v)
                             (screen v ++ [ichimoku_error]))
  /\ apply_trading_strategy (Some (row_of <$> raw)) tp v
     = Returns tt (mkWorld (trade_log_csv v) (clock v)
                           (screen v ++ [strategy_error])).
Proof.
  intros Hrun. unfold fetch_stock_data in Hrun.
  destruct (fetch_try session symbol) as [e|[record|]].
  - simpl in Hrun. discriminate.
  - injection Hrun as <- <-. repeat split.
  - discriminate.
Qed.

Lemma fetched_frame_is_too_short_witness :
  exists raw,
    fetch_stock_data sample_session "AAPL" fresh_world
    = FetchReturns (Some raw) fresh_world
    /\ length raw = 1
    /\ apply_trading_strategy (Some ((fun _ => sample_row 0) <$> raw)) 5
         fresh_world
       = Returns tt (mkWorld None 1000 [strategy_error]).
Proof.
  eexists. split; [reflexivity|].
  destruct (fetched_frame_is_too_short sample_session "AAPL" fresh_world
              fresh_world _ (fun _ => sample_row 0) 5 fresh_world eq_refl)
    as (Hlen & _ & _ & Hstrategy).
  split; [exact Hlen|exact Hstrategy].
Defined.
